(** * ShoppingCart: a shallow embedding of [src/shopping_cart.py]

    The Python class [ShoppingCart] holds a list of item names and a
    capacity.  Its methods read and mutate the instance and may raise, so
    every method is embedded as a function from the instance to an outcome
    (a raised exception or a returned value) paired with the instance as
    the call leaves it.  Python does not roll state back when an exception
    propagates, hence the instance is part of the outcome in both cases. *)

From stdpp Require Import gmap strings list fin_maps.
From Stdlib Require Import ZArith Lia.

Local Open Scope Z_scope.

(** ** The fragment of the Python runtime the class relies on *)

Module Py.

(** The exception classes that [shopping_cart.py] can raise, together
    with [KeyError], which a subscript [d[k]] on a dict would raise. *)
Inductive exn : Type :=
| OverflowError (msg : string)
| TypeError (msg : string)
| KeyError (key : string).

(** Values that flow through [get_total_price]: prices are Python
    integers (unbounded, hence [Z]); [NoneV] is Python's [None]. *)
Inductive value : Type :=
| IntV (n : Z)
| NoneV.

(** Outcome of evaluating an expression: raised exception or value. *)
Definition result (A : Type) : Type := (exn + A)%type.

(** [dict.get(key)]: the stored value, or [None] when the key is
    absent.  It never raises. *)
Definition dict_get (d : gmap string Z) (key : string) : value :=
  match d !! key with
  | Some n => IntV n
  | None => NoneV
  end.

Definition unsupported_iadd : string :=
  "unsupported operand type(s) for +=: 'int' and 'NoneType'".

(** [a += b] on the values above: integer addition, and a [TypeError]
    as soon as one operand is [None]. *)
Definition iadd (a b : value) : result value :=
  match a, b with
  | IntV x, IntV y => inr (IntV (x + y))
  | _, _ => inl (TypeError unsupported_iadd)
  end.

End Py.

Import Py.

(** ** The instance and the method monad *)

(** [__init__] sets two attributes: [items] and [max_size]. *)
Record ShoppingCart : Type := mkCart {
  items : list string;
  max_size : Z
}.

(** A method body: from the instance to its outcome and the instance
    afterwards. *)
Definition method (A : Type) : Type :=
  ShoppingCart → result A * ShoppingCart.

Global Instance method_ret : MRet method :=
  λ A (a : A) self, (inr a, self).

Global Instance method_bind : MBind method :=
  λ A B (f : A → method B) (m : method A) self,
    match m self with
    | (inr a, self') => f a self'
    | (inl e, self') => (inl e, self')
    end.

(** [raise e] *)
Definition raise {A : Type} (e : exn) : method A :=
  λ self, (inl e, self).

(** Reading an attribute of [self]. *)
Definition attr {A : Type} (field : ShoppingCart → A) : method A :=
  λ self, (inr (field self), self).

(** Lifting the outcome of an expression that does not touch [self]. *)
Definition eval {A : Type} (r : result A) : method A :=
  λ self, (r, self).

(** [self.items.append(item)]: in-place append on the list attribute. *)
Definition items_append (item : string) : method unit :=
  λ self, (inr tt, {| items := items self ++ [item];
                      max_size := max_size self |}).

(** [for x in l: acc = body x acc], run inside a method. *)
Fixpoint for_in {A : Type} (l : list string)
    (body : string → A → method A) (acc : A) : method A :=
  match l with
  | [] => mret acc
  | x :: rest => acc' ← body x acc; for_in rest body acc'
  end.

(** ** The class *)

(** [ShoppingCart()] *)
Definition new_cart : ShoppingCart :=
  {| items := []; max_size := 5 |}.

(** [size]: [return len(self.items)] *)
Definition size : method Z :=
  its ← attr items; mret (Z.of_nat (length its)).

Definition cart_full : string := "Cart is full - cannot add more".

(** [add]:
    [if self.size() == self.max_size: raise OverflowError(...)]
    [self.items.append(item)] *)
Definition add (item : string) : method unit :=
  n ← size;
  cap ← attr max_size;
  if n =? cap then raise (OverflowError cart_full)
  else items_append item.

(** [get_items]: [return self.items].  The annotation of the source is
    [List[str] | None]; the option mirrors it. *)
Definition get_items : method (option (list string)) :=
  its ← attr items; mret (Some its).

(** The loop body of [get_total_price]:
    [total_price += price_dict.get(item)] *)
Definition price_step (price_dict : gmap string Z)
    (item : string) (total_price : value) : method value :=
  eval (iadd total_price (dict_get price_dict item)).

(** [get_total_price]:
    [total_price = 0]
    [for item in self.items: total_price += price_dict.get(item)]
    [return total_price] *)
Definition get_total_price (price_dict : gmap string Z) : method value :=
  its ← attr items;
  for_in its (price_step price_dict) (IntV 0).

(** ** Callers: sequences of method calls on one instance *)

Inductive call : Type :=
| CallAdd (item : string)
| CallSize
| CallGetItems
| CallGetTotalPrice (price_dict : gmap string Z).

(** The instance after a call, whether the call returned or raised (the
    caller may catch the exception and go on using the instance). *)
Definition after (k : call) (self : ShoppingCart) : ShoppingCart :=
  match k with
  | CallAdd item => snd (add item self)
  | CallSize => snd (size self)
  | CallGetItems => snd (get_items self)
  | CallGetTotalPrice price_dict => snd (get_total_price price_dict self)
  end.

(** Instances reachable from a fresh one through the four methods. *)
Inductive reachable : ShoppingCart → Prop :=
| reachable_new : reachable new_cart
| reachable_call k self : reachable self → reachable (after k self).

(** [added n self]: [self] is a fresh cart on which [n] calls of [add]
    have returned normally; calls of [add] that raised may be interleaved
    and are not counted. *)
Inductive added : nat → ShoppingCart → Prop :=
| added_new : added 0 new_cart
| added_ok n self item self' :
    added n self → add item self = (inr tt, self') → added (S n) self'
| added_raised n self item e self' :
    added n self → add item self = (inl e, self') → added n self'.

(** [add] called on each element of a list in turn, stopping at the
    first exception. *)
Fixpoint add_each (l : list string) : method unit :=
  match l with
  | [] => mret tt
  | item :: rest => add item;; add_each rest
  end.

(** The class invariant of the data model. *)
Definition cart_inv (self : ShoppingCart) : Prop :=
  0 ≤ Z.of_nat (length (items self)) ≤ max_size self.

(** Sum of a list of prices. *)
Definition sum_prices (prices : list Z) : Z := foldr Z.add 0 prices.

(** The test fixture of [test_get_total_price]. *)
Definition test_prices : gmap string Z :=
  <["water" := 1]> (<["coffee" := 3]> (<["milk" := 2]> ∅)).

Definition test_cart : ShoppingCart :=
  {| items := ["water"; "coffee"; "milk"]; max_size := 5 |}.

(** Running a list of calls, one after the other, on one instance. *)
Definition run (calls : list call) (self : ShoppingCart) : ShoppingCart :=
  foldl (λ self k, after k self) self calls.

(** The items a list of calls tries to add, in order. *)
Definition call_items (calls : list call) : list string :=
  omap (λ k, match k with CallAdd item => Some item | _ => None end) calls.

(** The number of items a cart can still take. *)
Definition room (self : ShoppingCart) : nat :=
  Z.to_nat (max_size self - Z.of_nat (length (items self))).

(** The total a price lookup gives a list of items when it holds every
    one of them, and [None] when it misses one. *)
Fixpoint total_of (price_dict : gmap string Z) (l : list string) : option Z :=
  match l with
  | [] => Some 0
  | item :: rest =>
      p ← price_dict !! item; s ← total_of price_dict rest; Some (p + s)
  end.

(** ** The class over a heap of lists

    [self.items] is a reference to a mutable list object, and
    [get_items] returns that reference, not a copy.  Here the lists live
    in a store and the instance holds a handle into it, so that a caller
    holding the result of [get_items] shares the list with the cart. *)

Abbreviation store := (gmap nat (list string)).

Module Live.

(** A handle on a list object. *)
Definition loc : Type := nat.

(** The instance: [self.items] is a handle, [self.max_size] an integer. *)
Record obj : Type := mkObj {
  self_items : loc;
  self_max_size : Z
}.

Definition lmethod (A : Type) : Type := store → result A * store.

Global Instance live_ret : MRet lmethod :=
  λ A (a : A) σ, (inr a, σ).

Global Instance live_bind : MBind lmethod :=
  λ A B (f : A → lmethod B) (m : lmethod A) σ,
    match m σ with
    | (inr a, σ') => f a σ'
    | (inl e, σ') => (inl e, σ')
    end.

Definition lraise {A : Type} (e : exn) : lmethod A :=
  λ σ, (inl e, σ).

(** The list literal [[]]: a new, empty list object. *)
Definition list_new (σ : store) : loc * store :=
  let l := fresh (dom σ) in (l, <[l := []]> σ).

(** The elements of the list behind a handle. *)
Definition list_read (l : loc) (σ : store) : list string :=
  default [] (σ !! l).

(** [len(l)] *)
Definition list_len (l : loc) : lmethod Z :=
  λ σ, (inr (Z.of_nat (length (list_read l σ))), σ).

(** [l.append(x)]: in place, visible through every handle on the list. *)
Definition list_append (l : loc) (x : string) : lmethod unit :=
  λ σ, (inr tt, <[l := list_read l σ ++ [x]]> σ).

(** [for x in l: acc = body x acc] over the list behind a handle. *)
Fixpoint for_in {A : Type} (l : list string)
    (body : string → A → lmethod A) (acc : A) : lmethod A :=
  match l with
  | [] => mret acc
  | x :: rest => acc' ← body x acc; for_in rest body acc'
  end.

(** [__init__]: [self.items = []], [self.max_size = 5] *)
Definition init (σ : store) : obj * store :=
  let '(l, σ') := list_new σ in
  ({| self_items := l; self_max_size := 5 |}, σ').

(** [size]: [return len(self.items)] *)
Definition size (self : obj) : lmethod Z :=
  list_len (self_items self).

(** [add] *)
Definition add (self : obj) (item : string) : lmethod unit :=
  n ← size self;
  if n =? self_max_size self then lraise (OverflowError cart_full)
  else list_append (self_items self) item.

(** [get_items]: [return self.items], the handle itself. *)
Definition get_items (self : obj) : lmethod (option loc) :=
  mret (Some (self_items self)).

(** [total_price += price_dict.get(item)] *)
Definition price_step (price_dict : gmap string Z)
    (item : string) (total_price : value) : lmethod value :=
  λ σ, (iadd total_price (dict_get price_dict item), σ).

(** [get_total_price] *)
Definition get_total_price (self : obj) (price_dict : gmap string Z)
    : lmethod value :=
  λ σ, for_in (list_read (self_items self) σ) (price_step price_dict)
         (IntV 0) σ.

(** The cart an instance stands for in a given store. *)
Definition cart_of (self : obj) (σ : store) : ShoppingCart :=
  {| items := list_read (self_items self) σ;
     max_size := self_max_size self |}.

End Live.

Example test_get_total_price :
  fst (get_total_price test_prices test_cart) = inr (IntV 6).
Proof. vm_compute. reflexivity. Qed.

(** ** Basic equations of the methods *)

Section Equations.

Implicit Types (self : ShoppingCart) (item : string).
Implicit Types (price_dict : gmap string Z).

Lemma size_unfold self :
  size self = (inr (Z.of_nat (length (items self))), self).
Proof. reflexivity. Qed.

Lemma get_items_unfold self :
  get_items self = (inr (Some (items self)), self).
Proof. reflexivity. Qed.

Lemma add_unfold self item :
  add item self =
  if Z.of_nat (length (items self)) =? max_size self
  then (inl (OverflowError cart_full), self)
  else (inr tt, {| items := items self ++ [item];
                   max_size := max_size self |}).
Proof.
  unfold add, mbind, method_bind. rewrite size_unfold. simpl.
  destruct (_ =? _); reflexivity.
Qed.

Lemma add_at_capacity self item :
  Z.of_nat (length (items self)) = max_size self →
  add item self = (inl (OverflowError cart_full), self).
Proof.
  intros Hfull. rewrite add_unfold.
  apply Z.eqb_eq in Hfull. rewrite Hfull. reflexivity.
Qed.

Lemma add_below_capacity self item :
  Z.of_nat (length (items self)) ≠ max_size self →
  add item self = (inr tt, {| items := items self ++ [item];
                              max_size := max_size self |}).
Proof.
  intros Hroom. rewrite add_unfold.
  apply Z.eqb_neq in Hroom. rewrite Hroom. reflexivity.
Qed.

Lemma add_max_size self item : max_size (snd (add item self)) = max_size self.
Proof. rewrite add_unfold. destruct (_ =? _); reflexivity. Qed.

Lemma get_total_price_unfold price_dict self :
  get_total_price price_dict self =
  for_in (items self) (price_step price_dict) (IntV 0) self.
Proof. reflexivity. Qed.

Lemma for_in_cons {A} x (l : list string) (body : string → A → method A)
    acc self :
  for_in (x :: l) body acc self =
  match body x acc self with
  | (inr acc', self') => for_in l body acc' self'
  | (inl e, self') => (inl e, self')
  end.
Proof. reflexivity. Qed.

Lemma price_step_hit price_dict item p t self :
  price_dict !! item = Some p →
  price_step price_dict item (IntV t) self = (inr (IntV (t + p)), self).
Proof. intros Hp. unfold price_step, eval, dict_get. rewrite Hp. reflexivity. Qed.

Lemma price_step_miss price_dict item total self :
  price_dict !! item = None →
  price_step price_dict item total self =
  (inl (TypeError unsupported_iadd), self).
Proof.
  intros Hp. unfold price_step, eval, dict_get. rewrite Hp.
  destruct total; reflexivity.
Qed.

(** The running total after the loop is the initial total plus the sum
    of the prices found. *)
Lemma price_loop_sum price_dict l prices :
  Forall2 (λ item p, price_dict !! item = Some p) l prices →
  ∀ t self,
    for_in l (price_step price_dict) (IntV t) self =
    (inr (IntV (t + sum_prices prices)), self).
Proof.
  induction 1 as [|item p l prices Hp _ IH]; intros t self.
  - simpl. unfold mret, method_ret. rewrite Z.add_0_r. reflexivity.
  - rewrite for_in_cons, (price_step_hit _ _ p) by exact Hp.
    rewrite IH. simpl. rewrite Z.add_assoc. reflexivity.
Qed.

(** A missing key aborts the loop with [TypeError], whatever the total
    accumulated up to that point. *)
Lemma price_loop_missing price_dict l :
  (∃ item, item ∈ l ∧ price_dict !! item = None) →
  ∀ t self,
    for_in l (price_step price_dict) (IntV t) self =
    (inl (TypeError unsupported_iadd), self).
Proof.
  induction l as [|x l IH]; intros (item & Hin & Hnone) t self.
  - inversion Hin.
  - rewrite for_in_cons.
    destruct (price_dict !! x) as [p|] eqn:Hx.
    + rewrite (price_step_hit _ _ p) by exact Hx.
      apply IH. exists item. split; [|exact Hnone].
      apply elem_of_cons in Hin as [->|Hin]; [congruence|exact Hin].
    + rewrite price_step_miss by exact Hx. reflexivity.
Qed.

(** The loop never touches the instance. *)
Lemma price_loop_frame price_dict l :
  ∀ total self,
    snd (for_in l (price_step price_dict) total self) = self.
Proof.
  induction l as [|x l IH]; intros total self; [reflexivity|].
  rewrite for_in_cons. unfold price_step at 1, eval.
  destruct (iadd total (dict_get price_dict x)); [reflexivity|apply IH].
Qed.

(** Keys that are all present have a list of prices. *)
Lemma prices_exist price_dict l :
  (∀ item, item ∈ l → is_Some (price_dict !! item)) →
  ∃ prices, Forall2 (λ item p, price_dict !! item = Some p) l prices.
Proof.
  induction l as [|x l IH]; intros Hall.
  - exists []. constructor.
  - destruct (Hall x) as [p Hp]; [left|].
    destruct IH as [prices Hprices].
    { intros item Hin. apply Hall. right. exact Hin. }
    exists (p :: prices). constructor; assumption.
Qed.

End Equations.

(** ** Adding items *)

Section Adding.

Implicit Types (self : ShoppingCart) (item : string).

(** [add] either raises and leaves the instance alone, or returns and
    makes the list exactly one longer. *)
Lemma add_cases self item :
  (add item self = (inl (OverflowError cart_full), self) ∧
   Z.of_nat (length (items self)) = max_size self) ∨
  (add item self = (inr tt, {| items := items self ++ [item];
                               max_size := max_size self |}) ∧
   Z.of_nat (length (items self)) ≠ max_size self).
Proof.
  destruct (Z.eq_dec (Z.of_nat (length (items self))) (max_size self)) as [E|E].
  - left. split; [apply add_at_capacity|]; exact E.
  - right. split; [apply add_below_capacity|]; exact E.
Qed.

(** [add] keeps the invariant: the equality test suffices because the
    length grows by one at a time. *)
Lemma add_preserves_inv self item :
  cart_inv self → cart_inv (snd (add item self)).
Proof.
  unfold cart_inv. intros Hinv.
  destruct (add_cases self item) as [[-> _]|[-> Hne]]; simpl; [exact Hinv|].
  rewrite length_app. simpl. lia.
Qed.

Lemma added_spec n self :
  added n self →
  length (items self) = n ∧ max_size self = 5 ∧ (n ≤ 5)%nat.
Proof.
  induction 1 as [|n self item self' _ IH Hadd|n self item e self' _ IH Hadd].
  - repeat split; simpl; lia.
  - destruct IH as (Hlen & Hmax & Hle).
    destruct (add_cases self item) as [[Heq _]|[Heq Hne]];
      rewrite Heq in Hadd; [discriminate|].
    injection Hadd as <-. simpl. rewrite length_app. simpl.
    repeat split; [lia|exact Hmax|lia].
  - destruct (add_cases self item) as [[Heq _]|[Heq _]];
      rewrite Heq in Hadd; [|discriminate].
    injection Hadd as _ <-. exact IH.
Qed.

(** Adding a list that fits: every call returns and the items are
    appended in order. *)
Lemma add_each_fits l :
  ∀ self,
    Z.of_nat (length (items self) + length l) ≤ max_size self →
    add_each l self = (inr tt, {| items := items self ++ l;
                                  max_size := max_size self |}).
Proof.
  induction l as [|item l IH]; intros self Hfit.
  - simpl. unfold mret, method_ret. rewrite app_nil_r.
    destruct self; reflexivity.
  - simpl in *. unfold mbind, method_bind.
    rewrite add_below_capacity by lia.
    rewrite IH; simpl; [|rewrite length_app; simpl; lia].
    rewrite <- app_assoc. reflexivity.
Qed.

(** Any number of items up to the capacity can be added to a fresh cart. *)
Lemma added_possible (l : list string) :
  (length l ≤ 5)%nat → added (length l) {| items := l; max_size := 5 |}.
Proof.
  induction l as [|item l IH] using rev_ind; intros Hlen.
  - exact added_new.
  - rewrite length_app in *. simpl in *.
    replace (length l + 1)%nat with (S (length l)) by lia.
    eapply added_ok; [apply IH; lia|].
    rewrite add_below_capacity; simpl; [reflexivity|lia].
Qed.

End Adding.

(** ** Reachable instances *)

Lemma after_max_size k self : max_size (after k self) = max_size self.
Proof.
  destruct k as [item| | |price_dict]; simpl; try reflexivity.
  - apply add_max_size.
  - rewrite get_total_price_unfold, price_loop_frame. reflexivity.
Qed.

Lemma after_preserves_inv k self : cart_inv self → cart_inv (after k self).
Proof.
  intros Hinv. destruct k as [item| | |price_dict]; simpl; try exact Hinv.
  - apply add_preserves_inv, Hinv.
  - rewrite get_total_price_unfold, price_loop_frame. exact Hinv.
Qed.

(** Running a list of calls from a reachable cart stays reachable. *)
Lemma reachable_foldl (calls : list call) :
  ∀ self, reachable self →
          reachable (foldl (λ self k, after k self) self calls).
Proof.
  induction calls as [|k calls IH]; intros self Hreach; [exact Hreach|].
  simpl. apply IH, reachable_call, Hreach.
Qed.

(** ** Splitting a total by item *)

Lemma price_loop_split price_dict x p (l : list string) :
  price_dict !! x = Some p →
  (∀ item, item ∈ l → is_Some (price_dict !! item)) →
  ∃ rest,
    (∀ t self,
       for_in (filter (λ i, i ≠ x) l) (price_step price_dict) (IntV t) self =
       (inr (IntV (t + rest)), self)) ∧
    (∀ t self,
       for_in l (price_step price_dict) (IntV t) self =
       (inr (IntV (t + (Z.of_nat (length (filter (λ i, i = x) l)) * p + rest))),
        self)).
Proof.
  intros Hx. induction l as [|y l IH]; intros Hall.
  - exists 0. split; intros t self; simpl; unfold mret, method_ret;
      do 2 f_equal; f_equal; lia.
  - destruct IH as (rest & Hrest & Htot).
    { intros item Hin. apply Hall. right. exact Hin. }
    destruct (decide (y = x)) as [->|Hne].
    + exists rest. split; intros t self.
      * rewrite filter_cons_False by (intros H; apply H; reflexivity).
        apply Hrest.
      * rewrite filter_cons_True by reflexivity.
        rewrite for_in_cons, (price_step_hit _ _ p) by exact Hx.
        rewrite Htot. do 2 f_equal; f_equal. simpl length. lia.
    + destruct (Hall y) as [q Hq]; [left|].
      exists (q + rest). split; intros t self.
      * rewrite filter_cons_True by exact Hne.
        rewrite for_in_cons, (price_step_hit _ _ q) by exact Hq.
        rewrite Hrest. do 2 f_equal; f_equal. lia.
      * rewrite filter_cons_False by exact Hne.
        rewrite for_in_cons, (price_step_hit _ _ q) by exact Hq.
        rewrite Htot. do 2 f_equal; f_equal. lia.
Qed.

(** ** The specification's claims *)

(** C1. When every item of the cart is a key of the price lookup,
    [get_total_price] returns the sum, starting from zero, of the
    looked-up price of each item, and leaves the cart as it was. *)
Theorem get_total_price_sums (self : ShoppingCart) (price_dict : gmap string Z) :
  (∀ item, item ∈ items self → is_Some (price_dict !! item)) →
  ∃ prices,
    Forall2 (λ item p, price_dict !! item = Some p) (items self) prices ∧
    get_total_price price_dict self = (inr (IntV (sum_prices prices)), self).
Proof.
  intros Hall. destruct (prices_exist _ _ Hall) as [prices Hprices].
  exists prices. split; [exact Hprices|].
  rewrite get_total_price_unfold, (price_loop_sum _ _ prices) by exact Hprices.
  reflexivity.
Qed.

(** Instance of C1 on the fixture of the test suite: water, coffee and
    milk at 1, 3 and 2 total 6. *)
Lemma get_total_price_sums_witness :
  (∀ item, item ∈ items test_cart → is_Some (test_prices !! item)) ∧
  get_total_price test_prices test_cart = (inr (IntV 6), test_cart).
Proof.
  assert (Hall : ∀ item, item ∈ items test_cart → is_Some (test_prices !! item)).
  { intros item Hin. simpl in Hin.
    repeat (apply elem_of_cons in Hin as [->|Hin]; [vm_compute; eauto|]).
    inversion Hin. }
  split; [exact Hall|].
  destruct (get_total_price_sums test_cart test_prices Hall)
    as (prices & Hprices & ->).
  simpl in Hprices.
  repeat (apply Forall2_cons_inv_l in Hprices as (? & ? & Hp & Hprices & ->);
          vm_compute in Hp; injection Hp as <-).
  apply Forall2_nil_inv_l in Hprices as ->.
  reflexivity.
Defined.

(** C2, as the code has it. When some item of the cart is not a key of
    the price lookup, [get_total_price] raises [TypeError]: [dict.get]
    yields [None] for that item and adding [None] to the integer total is
    unsupported. No sum, partial or otherwise, is returned, and the cart
    is left as it was. *)
Theorem get_total_price_missing_key
    (self : ShoppingCart) (price_dict : gmap string Z) :
  (∃ item, item ∈ items self ∧ price_dict !! item = None) →
  get_total_price price_dict self = (inl (TypeError unsupported_iadd), self).
Proof.
  intros Hmiss. rewrite get_total_price_unfold.
  apply price_loop_missing, Hmiss.
Qed.

Lemma get_total_price_missing_key_witness :
  (∃ item, item ∈ items test_cart ∧ delete "milk" test_prices !! item = None) ∧
  get_total_price (delete "milk" test_prices) test_cart =
  (inl (TypeError unsupported_iadd), test_cart).
Proof.
  assert (Hmiss : ∃ item, item ∈ items test_cart ∧
                          delete "milk" test_prices !! item = None).
  { exists "milk". split; [simpl; set_solver|vm_compute; reflexivity]. }
  split; [exact Hmiss|].
  exact (get_total_price_missing_key test_cart (delete "milk" test_prices) Hmiss).
Defined.

(** C2, as the specification words it, fails: on the test cart with the
    price of milk removed from the lookup, an item is missing and yet the
    exception raised is not a [KeyError]. *)
Lemma get_total_price_missing_key_not_KeyError :
  (∃ item, item ∈ items test_cart ∧ delete "milk" test_prices !! item = None) ∧
  ∀ key, fst (get_total_price (delete "milk" test_prices) test_cart)
         ≠ inl (KeyError key).
Proof.
  split.
  - exists "milk". split; [simpl; set_solver|vm_compute; reflexivity].
  - intros key. vm_compute. discriminate.
Qed.

(** C3. On a cart whose length equals [max_size], [add] raises
    [OverflowError] for every item and leaves both attributes as they
    were. *)
Theorem add_full_raises (self : ShoppingCart) (item : string) :
  Z.of_nat (length (items self)) = max_size self →
  add item self = (inl (OverflowError cart_full), self).
Proof. apply add_at_capacity. Qed.

Lemma add_full_raises_witness :
  let full := {| items := ["a"; "b"; "c"; "d"; "e"]; max_size := 5 |} in
  Z.of_nat (length (items full)) = max_size full ∧
  add "coffee" full = (inl (OverflowError cart_full), full).
Proof.
  intros full.
  split; [reflexivity|apply (add_full_raises full "coffee"); reflexivity].
Defined.

(** C4. On a cart whose length is strictly below [max_size], [add]
    returns for every item, the empty string and items already present
    included, and the new item sequence is the old one with the item
    appended at the end. *)
Theorem add_appends (self : ShoppingCart) (item : string) :
  Z.of_nat (length (items self)) < max_size self →
  add item self = (inr tt, {| items := items self ++ [item];
                              max_size := max_size self |}).
Proof. intros Hlt. apply add_below_capacity. lia. Qed.

Lemma add_appends_witness :
  let cart := {| items := [""; "rice"]; max_size := 5 |} in
  Z.of_nat (length (items cart)) < max_size cart ∧
  add "" cart = (inr tt, {| items := [""; "rice"; ""]; max_size := 5 |}) ∧
  add "rice" cart = (inr tt, {| items := [""; "rice"; "rice"]; max_size := 5 |}).
Proof.
  intros cart.
  split; [reflexivity|].
  split; [apply (add_appends cart ""); reflexivity
         |apply (add_appends cart "rice"); reflexivity].
Defined.

(** C5. Every cart reachable from a fresh one (empty, capacity 5) by
    calls of [add], [size], [get_items] and [get_total_price], returning
    or raising, satisfies [0 <= len(items) <= max_size]. *)
Theorem reachable_inv (self : ShoppingCart) :
  reachable self → cart_inv self ∧ max_size self = 5.
Proof.
  induction 1 as [|k self _ [IHinv IHmax]].
  - split; [unfold cart_inv; simpl; lia|reflexivity].
  - split; [apply after_preserves_inv, IHinv|].
    rewrite after_max_size. exact IHmax.
Qed.

Lemma reachable_inv_witness :
  let calls := [CallAdd "apple"; CallSize; CallGetTotalPrice ∅;
                CallGetItems; CallAdd "rice"] in
  let cart := foldl (λ self k, after k self) new_cart calls in
  reachable cart ∧ cart_inv cart ∧ max_size cart = 5.
Proof.
  intros calls cart.
  assert (Hreach : reachable cart).
  { apply reachable_foldl, reachable_new. }
  split; [exact Hreach|exact (reachable_inv cart Hreach)].
Defined.

(** C6. After [n] calls of [add] that returned on a fresh cart, [size]
    returns [n], and such an [n] never exceeds [max_size]; on any cart
    [size] returns the length of the item list, which is never
    negative. *)
Theorem size_counts_added (n : nat) (self : ShoppingCart) :
  added n self →
  (fst (size self) = inr (Z.of_nat n) ∧ Z.of_nat n ≤ max_size self) ∧
  (∀ cart, ∃ k, fst (size cart) = inr k ∧
                k = Z.of_nat (length (items cart)) ∧ 0 ≤ k).
Proof.
  intros Hadded. destruct (added_spec _ _ Hadded) as (Hlen & Hmax & Hle).
  split.
  - rewrite size_unfold, Hlen, Hmax. simpl. split; [reflexivity|lia].
  - intros cart. exists (Z.of_nat (length (items cart))).
    rewrite size_unfold. simpl. repeat split. lia.
Qed.

Lemma size_counts_added_witness :
  let cart := {| items := ["apple"; "rice"]; max_size := 5 |} in
  added 2 cart ∧ fst (size cart) = inr 2 ∧ 2 ≤ max_size cart.
Proof.
  intros cart.
  assert (Hadded : added 2 cart).
  { apply (added_ok 1 {| items := ["apple"]; max_size := 5 |} "rice");
      [|reflexivity].
    apply (added_ok 0 new_cart "apple"); [apply added_new|reflexivity]. }
  split; [exact Hadded|].
  exact (proj1 (size_counts_added 2 cart Hadded)).
Defined.

(** C7. [get_items] returns the items in insertion order: after [a],
    [b], [c] are added in that order to a fresh cart it returns
    [[a; b; c]], and likewise for any list of items that fits the
    capacity; on a fresh (empty) cart it returns the empty list; and on
    no cart does it return [None]. *)
Theorem get_items_insertion_order :
  (∀ a b c : string,
     fst ((add a;; add b;; add c;; get_items) new_cart)
     = inr (Some [a; b; c])) ∧
  (∀ l : list string,
     (length l ≤ 5)%nat →
     fst ((add_each l;; get_items) new_cart) = inr (Some l)) ∧
  fst (get_items new_cart) = inr (Some []) ∧
  (∀ self, fst (get_items self) = inr (Some (items self)) ∧
           fst (get_items self) ≠ inr None).
Proof.
  split; [|split; [|split]].
  - intros a b c.
    unfold mbind, method_bind.
    rewrite add_below_capacity by (simpl; lia). lazy beta iota.
    rewrite add_below_capacity by (simpl; lia). lazy beta iota.
    rewrite add_below_capacity by (simpl; lia). reflexivity.
  - intros l Hlen. unfold mbind, method_bind.
    rewrite add_each_fits by (simpl; lia). reflexivity.
  - reflexivity.
  - intros self. rewrite get_items_unfold. simpl. split; [reflexivity|].
    discriminate.
Qed.

(** C8. On a cart without items [get_total_price] returns 0 whatever the
    price lookup, the empty lookup included. *)
Theorem get_total_price_empty :
  (∀ (price_dict : gmap string Z) (cap : Z),
     get_total_price price_dict {| items := []; max_size := cap |}
     = (inr (IntV 0), {| items := []; max_size := cap |})) ∧
  fst (get_total_price ∅ new_cart) = inr (IntV 0).
Proof. split; [intros price_dict cap|]; reflexivity. Qed.

(** C9. [size], [get_items] and [get_total_price] leave the cart as it
    was, for every cart and every price lookup, also when
    [get_total_price] raises. *)
Theorem readers_frame (self : ShoppingCart) (price_dict : gmap string Z) :
  snd (size self) = self ∧
  snd (get_items self) = self ∧
  snd (get_total_price price_dict self) = self.
Proof.
  split; [reflexivity|]. split; [reflexivity|].
  rewrite get_total_price_unfold. apply price_loop_frame.
Qed.

(** C10. Duplicates each contribute: when an item occurs [k] times in
    the cart and has price [p] in a lookup that holds every item of the
    cart, the total is [k * p] plus the total of the cart with that item
    taken out. *)
Theorem get_total_price_duplicates
    (self : ShoppingCart) (price_dict : gmap string Z)
    (x : string) (p : Z) (k : nat) :
  (∀ item, item ∈ items self → is_Some (price_dict !! item)) →
  price_dict !! x = Some p →
  length (filter (λ i, i = x) (items self)) = k →
  ∃ rest,
    fst (get_total_price price_dict
           {| items := filter (λ i, i ≠ x) (items self);
              max_size := max_size self |}) = inr (IntV rest) ∧
    get_total_price price_dict self
    = (inr (IntV (Z.of_nat k * p + rest)), self).
Proof.
  intros Hall Hx <-.
  destruct (price_loop_split price_dict x p (items self) Hx Hall)
    as (rest & Hrest & Htot).
  exists rest. rewrite !get_total_price_unfold. simpl items.
  rewrite Hrest, Htot. split; reflexivity.
Qed.

Lemma get_total_price_duplicates_witness :
  let cart := {| items := ["coffee"; "milk"; "coffee"; "water"; "coffee"];
                 max_size := 5 |} in
  (∀ item, item ∈ items cart → is_Some (test_prices !! item)) ∧
  test_prices !! "coffee" = Some 3 ∧
  length (filter (λ i, i = "coffee") (items cart)) = 3%nat ∧
  ∃ rest,
    fst (get_total_price test_prices
           {| items := filter (λ i, i ≠ "coffee") (items cart);
              max_size := max_size cart |}) = inr (IntV rest) ∧
    get_total_price test_prices cart = (inr (IntV (Z.of_nat 3 * 3 + rest)), cart).
Proof.
  intros cart.
  assert (Hall : ∀ item, item ∈ items cart → is_Some (test_prices !! item)).
  { intros item Hin. simpl in Hin.
    repeat (apply elem_of_cons in Hin as [->|Hin]; [vm_compute; eauto|]).
    inversion Hin. }
  assert (Hx : test_prices !! "coffee" = Some 3) by (vm_compute; reflexivity).
  assert (Hk : length (filter (λ i, i = "coffee") (items cart)) = 3%nat)
    by (vm_compute; reflexivity).
  split; [exact Hall|]. split; [exact Hx|]. split; [exact Hk|].
  exact (get_total_price_duplicates cart test_prices "coffee" 3 3 Hall Hx Hk).
Defined.

(** ** Further properties of the class *)

Section Totals.

Implicit Types (self : ShoppingCart) (price_dict : gmap string Z).

(** The loop computes [total_of], on top of the total it starts from. *)
Lemma price_loop_total_of price_dict (l : list string) :
  ∀ t self,
    for_in l (price_step price_dict) (IntV t) self =
    (match total_of price_dict l with
     | Some s => inr (IntV (t + s))
     | None => inl (TypeError unsupported_iadd)
     end, self).
Proof.
  induction l as [|x l IH]; intros t self.
  - simpl. unfold mret, method_ret. rewrite Z.add_0_r. reflexivity.
  - rewrite for_in_cons. simpl total_of.
    destruct (price_dict !! x) as [p|] eqn:Hx.
    + rewrite (price_step_hit _ _ p) by exact Hx. rewrite IH. simpl.
      destruct (total_of price_dict l) as [s|]; simpl; [|reflexivity].
      rewrite Z.add_assoc. reflexivity.
    + rewrite price_step_miss by exact Hx. reflexivity.
Qed.

Lemma get_total_price_total_of price_dict self :
  get_total_price price_dict self =
  (match total_of price_dict (items self) with
   | Some s => inr (IntV s)
   | None => inl (TypeError unsupported_iadd)
   end, self).
Proof.
  rewrite get_total_price_unfold, price_loop_total_of. reflexivity.
Qed.

Lemma total_of_app price_dict (l1 l2 : list string) :
  total_of price_dict (l1 ++ l2) =
  s1 ← total_of price_dict l1; s2 ← total_of price_dict l2; Some (s1 + s2).
Proof.
  induction l1 as [|x l1 IH]; simpl.
  - destruct (total_of price_dict l2); reflexivity.
  - destruct (price_dict !! x) as [p|]; simpl; [|reflexivity].
    rewrite IH. destruct (total_of price_dict l1) as [s1|]; simpl; [|reflexivity].
    destruct (total_of price_dict l2) as [s2|]; simpl; [|reflexivity].
    rewrite Z.add_assoc. reflexivity.
Qed.


Lemma total_of_ext price_dict1 price_dict2 (l : list string) :
  (∀ item, item ∈ l → price_dict1 !! item = price_dict2 !! item) →
  total_of price_dict1 l = total_of price_dict2 l.
Proof.
  induction l as [|x l IH]; intros Hagree; simpl; [reflexivity|].
  rewrite (Hagree x) by left.
  rewrite IH; [reflexivity|]. intros item Hin. apply Hagree. right. exact Hin.
Qed.

Lemma total_of_is_Some price_dict (l : list string) :
  is_Some (total_of price_dict l) ↔
  ∀ item, item ∈ l → is_Some (price_dict !! item).
Proof.
  induction l as [|x l IH]; simpl.
  - split; [intros _ item Hin; inversion Hin|eauto].
  - split.
    + intros Hsome item Hin.
      destruct (price_dict !! x) as [p|] eqn:Hx; simpl in Hsome;
        [|destruct Hsome; discriminate].
      destruct (total_of price_dict l) as [s|]; simpl in Hsome;
        [|destruct Hsome; discriminate].
      apply elem_of_cons in Hin as [->|Hin]; [rewrite Hx; eauto|].
      apply IH; eauto.
    + intros Hall. destruct (Hall x) as [p ->]; [left|]. simpl.
      destruct (proj2 IH) as [s ->]; [|simpl; eauto].
      intros item Hin. apply Hall. right. exact Hin.
Qed.

Lemma total_of_missing price_dict (l : list string) item :
  item ∈ l → price_dict !! item = None → total_of price_dict l = None.
Proof.
  intros Hin Hnone.
  destruct (total_of price_dict l) as [s|] eqn:Hs; [|reflexivity].
  destruct (proj1 (total_of_is_Some price_dict l) (mk_is_Some _ _ Hs) item Hin)
    as [p Hp].
  congruence.
Qed.

End Totals.

Section Calls.

Implicit Types (self : ShoppingCart) (k : call) (calls : list call).

Lemma after_add self item :
  after (CallAdd item) self =
  if Z.of_nat (length (items self)) =? max_size self then self
  else {| items := items self ++ [item]; max_size := max_size self |}.
Proof.
  simpl. rewrite add_unfold. destruct (_ =? _); reflexivity.
Qed.

Lemma after_reader self k :
  (∀ item, k ≠ CallAdd item) → after k self = self.
Proof.
  intros Hk. destruct k as [item| | |price_dict]; simpl; try reflexivity.
  - destruct (Hk item). reflexivity.
  - rewrite get_total_price_unfold. apply price_loop_frame.
Qed.

Lemma after_full self k :
  Z.of_nat (length (items self)) = max_size self → after k self = self.
Proof.
  intros Hfull. destruct k as [item| | |price_dict].
  - rewrite after_add. apply Z.eqb_eq in Hfull. rewrite Hfull. reflexivity.
  - reflexivity.
  - reflexivity.
  - apply after_reader. discriminate.
Qed.

Lemma after_prefix self k : items self `prefix_of` items (after k self).
Proof.
  destruct k as [item| | |price_dict]; try (rewrite after_reader; [reflexivity|discriminate]).
  rewrite after_add. destruct (_ =? _); simpl; [reflexivity|].
  apply prefix_app_r. reflexivity.
Qed.

Lemma run_cons k calls self : run (k :: calls) self = run calls (after k self).
Proof. reflexivity. Qed.

Lemma record_eta self :
  {| items := items self; max_size := max_size self |} = self.
Proof. destruct self; reflexivity. Qed.

Lemma items_grow calls :
  ∀ self, items self `prefix_of` items (run calls self).
Proof.
  induction calls as [|k calls IH]; intros self; [reflexivity|].
  rewrite run_cons. etrans; [apply after_prefix|apply IH].
Qed.

End Calls.

(** X1. The capacity test of [add] is an equality: on a cart whose
    length already exceeds [max_size], every [add] returns and appends,
    for any number of items. *)
Theorem add_each_overfull (self : ShoppingCart) (l : list string) :
  max_size self < Z.of_nat (length (items self)) →
  add_each l self = (inr tt, {| items := items self ++ l;
                                max_size := max_size self |}).
Proof.
  revert self. induction l as [|item l IH]; intros self Hover.
  - simpl. unfold mret, method_ret. rewrite app_nil_r, record_eta. reflexivity.
  - simpl. unfold mbind, method_bind.
    rewrite add_below_capacity by lia.
    rewrite IH by (simpl; rewrite length_app; simpl; lia).
    simpl. rewrite <- app_assoc. reflexivity.
Qed.

Lemma add_each_overfull_witness :
  let cart := {| items := ["a"; "b"; "c"; "d"; "e"; "f"]; max_size := 5 |} in
  max_size cart < Z.of_nat (length (items cart)) ∧
  add_each ["g"; "h"] cart =
  (inr tt, {| items := ["a"; "b"; "c"; "d"; "e"; "f"; "g"; "h"];
              max_size := 5 |}).
Proof.
  intros cart. split; [reflexivity|].
  apply (add_each_overfull cart ["g"; "h"]). reflexivity.
Defined.

(** X2. Adding more items than there is room for raises
    [OverflowError] at the first item that does not fit; the items added
    before it stay in the cart. *)
Theorem add_each_overflow (self : ShoppingCart) (l : list string) :
  cart_inv self →
  (room self < length l)%nat →
  add_each l self =
  (inl (OverflowError cart_full),
   {| items := items self ++ take (room self) l; max_size := max_size self |}).
Proof.
  revert self. induction l as [|item l IH]; intros self Hinv Hroom.
  - simpl in Hroom. lia.
  - simpl add_each. unfold mbind, method_bind.
    pose proof (add_preserves_inv self item Hinv) as Hinv'.
    unfold room, cart_inv in *.
    destruct (add_cases self item) as [[Hadd Hfull]|[Hadd Hne]];
      rewrite Hadd in *.
    + rewrite Hfull, Z.sub_diag. simpl.
      rewrite app_nil_r, record_eta. reflexivity.
    + simpl in Hinv', Hroom. rewrite length_app in Hinv'. simpl in Hinv'.
      rewrite IH; simpl; rewrite ?length_app; simpl; [|lia|lia].
      replace (Z.to_nat (max_size self - Z.of_nat (length (items self))))
        with (S (Z.to_nat (max_size self
                           - Z.of_nat (length (items self) + 1)%nat))) by lia.
      simpl. rewrite <- app_assoc. reflexivity.
Qed.

Lemma add_each_overflow_witness :
  let six := ["something"; "something"; "something"; "something";
              "something"; "coffee"] in
  cart_inv new_cart ∧ (room new_cart < length six)%nat ∧
  add_each six new_cart =
  (inl (OverflowError cart_full),
   {| items := ["something"; "something"; "something"; "something";
                "something"]; max_size := 5 |}).
Proof.
  intros six.
  assert (Hinv : cart_inv new_cart) by (unfold cart_inv; simpl; lia).
  assert (Hroom : (room new_cart < length six)%nat) by (vm_compute; lia).
  split; [exact Hinv|]. split; [exact Hroom|].
  exact (add_each_overflow new_cart six Hinv Hroom).
Defined.

(** X3. A full cart is final: whatever calls follow, returning or
    raising, the cart stays exactly as it is. *)
Theorem full_cart_is_final (self : ShoppingCart) (calls : list call) :
  Z.of_nat (length (items self)) = max_size self →
  run calls self = self.
Proof.
  intros Hfull. induction calls as [|k calls IH]; [reflexivity|].
  rewrite run_cons, after_full by exact Hfull. exact IH.
Qed.

Lemma full_cart_is_final_witness :
  let full := {| items := ["a"; "b"; "c"; "d"; "e"]; max_size := 5 |} in
  let calls := [CallAdd "f"; CallGetTotalPrice ∅; CallSize; CallAdd "g"] in
  Z.of_nat (length (items full)) = max_size full ∧ run calls full = full.
Proof.
  intros full calls. split; [reflexivity|].
  apply (full_cart_is_final full calls). reflexivity.
Defined.

(** X4. No call removes, replaces or reorders an item, and none changes
    the capacity: after any list of calls the old item sequence is a
    prefix of the new one and [max_size] is what it was. *)
Theorem items_only_grow (calls : list call) (self : ShoppingCart) :
  items self `prefix_of` items (run calls self) ∧
  max_size (run calls self) = max_size self.
Proof.
  split; [apply items_grow|].
  revert self. induction calls as [|k calls IH]; intros self; [reflexivity|].
  rewrite run_cons, IH. apply after_max_size.
Qed.

(** X5. A cart that respects its capacity holds, after any list of
    calls, the items it had followed by the first items the calls tried
    to add, as many as there was room for (five for a fresh cart). *)
Theorem run_keeps_first_items (calls : list call) (self : ShoppingCart) :
  cart_inv self →
  run calls self =
  {| items := items self ++ take (room self) (call_items calls);
     max_size := max_size self |}.
Proof.
  revert self. induction calls as [|k calls IH]; intros self Hinv.
  - simpl. rewrite take_nil, app_nil_r. symmetry. apply record_eta.
  - rewrite run_cons, IH by (apply after_preserves_inv, Hinv).
    destruct k as [item| | |price_dict];
      try (rewrite after_reader by discriminate; reflexivity).
    rewrite after_add. unfold room, cart_inv in *. simpl call_items.
    destruct (Z.eqb_spec (Z.of_nat (length (items self))) (max_size self)) as [E|E].
    + rewrite E, Z.sub_diag. reflexivity.
    + simpl. rewrite length_app. simpl.
      replace (Z.to_nat (max_size self - Z.of_nat (length (items self))))
        with (S (Z.to_nat (max_size self
                           - Z.of_nat (length (items self) + 1)%nat))) by lia.
      simpl. rewrite <- app_assoc. reflexivity.
Qed.

Lemma run_keeps_first_items_witness :
  let calls := [CallAdd "a"; CallSize; CallAdd "b"; CallAdd "c";
                CallGetItems; CallAdd "d"; CallAdd "e"; CallAdd "f";
                CallGetTotalPrice ∅; CallAdd "g"] in
  cart_inv new_cart ∧
  run calls new_cart =
  {| items := ["a"; "b"; "c"; "d"; "e"]; max_size := 5 |}.
Proof.
  intros calls.
  assert (Hinv : cart_inv new_cart) by (unfold cart_inv; simpl; lia).
  split; [exact Hinv|].
  exact (run_keeps_first_items calls new_cart Hinv).
Defined.

(** X6. The carts reachable from a fresh one are exactly those with
    capacity 5 and at most five items: every such item sequence can be
    built. *)
Theorem reachable_iff (self : ShoppingCart) :
  reachable self ↔
  max_size self = 5 ∧ (length (items self) ≤ 5)%nat.
Proof.
  split.
  - induction 1 as [|k self _ [IHmax IHlen]]; [simpl; split; [reflexivity|lia]|].
    rewrite after_max_size. split; [exact IHmax|].
    assert (Hinv : cart_inv (after k self)).
    { apply after_preserves_inv. unfold cart_inv. lia. }
    unfold cart_inv in Hinv. rewrite after_max_size in Hinv. lia.
  - destruct self as [l cap]. simpl. intros [-> Hlen].
    induction l as [|item l IH] using rev_ind; [apply reachable_new|].
    rewrite length_app in Hlen. simpl in Hlen.
    replace {| items := l ++ [item]; max_size := 5 |}
      with (after (CallAdd item) {| items := l; max_size := 5 |}).
    + apply reachable_call, IH. lia.
    + rewrite after_add. simpl.
      destruct (Z.eqb_spec (Z.of_nat (length l)) 5); [lia|reflexivity].
Qed.



(** X8. Only the prices of the items in the cart matter: two lookups
    that agree on every item of the cart give the same outcome, whatever
    else they hold. *)
Theorem get_total_price_agree
    (self : ShoppingCart) (price_dict1 price_dict2 : gmap string Z) :
  (∀ item, item ∈ items self → price_dict1 !! item = price_dict2 !! item) →
  get_total_price price_dict1 self = get_total_price price_dict2 self.
Proof.
  intros Hagree. rewrite !get_total_price_total_of.
  rewrite (total_of_ext _ _ _ Hagree). reflexivity.
Qed.

Lemma get_total_price_agree_witness :
  let prices := <["tea" := 7]> test_prices in
  (∀ item, item ∈ items test_cart → test_prices !! item = prices !! item) ∧
  get_total_price prices test_cart = (inr (IntV 6), test_cart).
Proof.
  intros prices.
  assert (Hagree : ∀ item, item ∈ items test_cart →
                           test_prices !! item = prices !! item).
  { intros item Hin. simpl in Hin.
    repeat (apply elem_of_cons in Hin as [->|Hin]; [vm_compute; reflexivity|]).
    inversion Hin. }
  split; [exact Hagree|].
  rewrite <- (get_total_price_agree test_cart test_prices prices Hagree).
  reflexivity.
Defined.


(** X10. Adding an item that has a price raises the total by that price:
    when the cart has room, [add] followed by [get_total_price] returns
    the old total plus the price of the new item. *)
Theorem get_total_price_after_add
    (self : ShoppingCart) (price_dict : gmap string Z)
    (item : string) (p t : Z) :
  Z.of_nat (length (items self)) ≠ max_size self →
  price_dict !! item = Some p →
  fst (get_total_price price_dict self) = inr (IntV t) →
  fst ((add item;; get_total_price price_dict) self) = inr (IntV (t + p)).
Proof.
  intros Hroom Hp. unfold mbind, method_bind.
  rewrite add_below_capacity by exact Hroom.
  rewrite !get_total_price_total_of. simpl. rewrite total_of_app. simpl.
  rewrite Hp. simpl.
  destruct (total_of price_dict (items self)) as [s|]; simpl; [|discriminate].
  intros [= ->]. rewrite Z.add_0_r. reflexivity.
Qed.

Lemma get_total_price_after_add_witness :
  Z.of_nat (length (items test_cart)) ≠ max_size test_cart ∧
  test_prices !! "coffee" = Some 3 ∧
  fst (get_total_price test_prices test_cart) = inr (IntV 6) ∧
  fst ((add "coffee";; get_total_price test_prices) test_cart)
  = inr (IntV (6 + 3)).
Proof.
  assert (Hroom : Z.of_nat (length (items test_cart)) ≠ max_size test_cart)
    by (simpl; lia).
  assert (Hp : test_prices !! "coffee" = Some 3) by (vm_compute; reflexivity).
  assert (Ht : fst (get_total_price test_prices test_cart) = inr (IntV 6))
    by (vm_compute; reflexivity).
  split; [exact Hroom|]. split; [exact Hp|]. split; [exact Ht|].
  exact (get_total_price_after_add test_cart test_prices "coffee" 3 6
           Hroom Hp Ht).
Defined.

(** X11. An item without a price spoils the cart for that lookup for
    good: items are never removed, so after any further calls
    [get_total_price] still raises [TypeError]. *)
Theorem unpriced_item_stays
    (self : ShoppingCart) (price_dict : gmap string Z)
    (item : string) (calls : list call) :
  item ∈ items self →
  price_dict !! item = None →
  fst (get_total_price price_dict (run calls self))
  = inl (TypeError unsupported_iadd).
Proof.
  intros Hin Hnone. rewrite get_total_price_total_of. simpl.
  destruct (items_grow calls self) as [rest Hrest].
  rewrite (total_of_missing price_dict _ item); [reflexivity| |exact Hnone].
  rewrite Hrest. apply elem_of_app. left. exact Hin.
Qed.

Lemma unpriced_item_stays_witness :
  let cart := {| items := ["tea"]; max_size := 5 |} in
  let calls := [CallAdd "water"; CallAdd "milk"; CallSize] in
  "tea" ∈ items cart ∧ test_prices !! "tea" = None ∧
  fst (get_total_price test_prices (run calls cart))
  = inl (TypeError unsupported_iadd).
Proof.
  intros cart calls.
  assert (Hin : "tea" ∈ items cart) by (simpl; left).
  assert (Hnone : test_prices !! "tea" = None) by (vm_compute; reflexivity).
  split; [exact Hin|]. split; [exact Hnone|].
  exact (unpriced_item_stays cart test_prices "tea" calls Hin Hnone).
Defined.

(** ** The class over the heap of lists *)

Section LiveLemmas.

Implicit Types (self : Live.obj) (σ : store) (item : string).

Lemma list_read_insert (l : Live.loc) (v : list string) σ :
  Live.list_read l (<[l := v]> σ) = v.
Proof. unfold Live.list_read. rewrite lookup_insert_eq. reflexivity. Qed.

Lemma list_read_insert_ne (l l' : Live.loc) (v : list string) σ :
  l ≠ l' → Live.list_read l' (<[l := v]> σ) = Live.list_read l' σ.
Proof.
  intros Hne. unfold Live.list_read. rewrite lookup_insert_ne by exact Hne.
  reflexivity.
Qed.

Lemma live_add_unfold self item σ :
  Live.add self item σ =
  if Z.of_nat (length (Live.list_read (Live.self_items self) σ))
     =? Live.self_max_size self
  then (inl (OverflowError cart_full), σ)
  else (inr tt, <[Live.self_items self :=
                    Live.list_read (Live.self_items self) σ ++ [item]]> σ).
Proof.
  unfold Live.add, mbind, Live.live_bind, Live.size, Live.list_len. simpl.
  destruct (_ =? _); reflexivity.
Qed.


Lemma init_fresh σ : σ !! Live.self_items (fst (Live.init σ)) = None.
Proof.
  unfold Live.init, Live.list_new. simpl.
  apply not_elem_of_dom, is_fresh.
Qed.

Lemma init_store σ :
  snd (Live.init σ) = <[Live.self_items (fst (Live.init σ)) := []]> σ.
Proof. reflexivity. Qed.

End LiveLemmas.


(** X13. [get_items] hands out the cart's own list: an [append] on the
    list it returned puts the item in the cart, with no capacity test. *)
Theorem get_items_alias
    (self : Live.obj) (σ : store) (h : Live.loc) (x : string) :
  fst (Live.get_items self σ) = inr (Some h) →
  Live.cart_of self (snd (Live.list_append h x σ)) =
  {| items := items (Live.cart_of self σ) ++ [x];
     max_size := max_size (Live.cart_of self σ) |}.
Proof.
  intros [= <-]. unfold Live.cart_of, Live.list_append. simpl.
  rewrite list_read_insert. reflexivity.
Qed.

Lemma get_items_alias_witness :
  let self := {| Live.self_items := 0%nat; Live.self_max_size := 5 |} in
  let σ : store := {[ 0%nat := ["a"; "b"; "c"; "d"; "e"] ]} in
  fst (Live.get_items self σ) = inr (Some 0%nat) ∧
  Live.cart_of self (snd (Live.list_append 0%nat "f" σ)) =
  {| items := ["a"; "b"; "c"; "d"; "e"; "f"]; max_size := 5 |}.
Proof.
  intros self σ. split; [reflexivity|].
  rewrite (get_items_alias self σ 0%nat "f" eq_refl).
  vm_compute. reflexivity.
Defined.

(** X14. Through that list a caller can overfill a full cart: after one
    [append] on the list returned by [get_items] the cart is longer than
    [max_size], and from then on [add] returns instead of raising. *)
Theorem get_items_alias_overfills
    (self : Live.obj) (σ : store) (h : Live.loc) (x y : string) :
  fst (Live.size self σ) = inr (Live.self_max_size self) →
  fst (Live.get_items self σ) = inr (Some h) →
  let σ' := snd (Live.list_append h x σ) in
  ¬ cart_inv (Live.cart_of self σ') ∧
  fst (Live.size self σ') = inr (Live.self_max_size self + 1) ∧
  fst (Live.add self y σ') = inr tt.
Proof.
  intros Hfull [= <-] σ'. subst σ'. unfold Live.list_append. simpl.
  unfold Live.size, Live.list_len in *. simpl in *.
  injection Hfull as Hfull.
  split; [|split].
  - unfold cart_inv, Live.cart_of. simpl. rewrite list_read_insert, length_app.
    simpl. lia.
  - rewrite list_read_insert, length_app. simpl. f_equal. lia.
  - rewrite live_add_unfold, list_read_insert, length_app. simpl.
    destruct (Z.eqb_spec
                (Z.of_nat (length (Live.list_read (Live.self_items self) σ) + 1))
                (Live.self_max_size self)); [lia|reflexivity].
Qed.

Lemma get_items_alias_overfills_witness :
  let self := {| Live.self_items := 0%nat; Live.self_max_size := 5 |} in
  let σ : store := {[ 0%nat := ["a"; "b"; "c"; "d"; "e"] ]} in
  let σ' := snd (Live.list_append 0%nat "f" σ) in
  fst (Live.size self σ) = inr (Live.self_max_size self) ∧
  fst (Live.get_items self σ) = inr (Some 0%nat) ∧
  ¬ cart_inv (Live.cart_of self σ') ∧
  fst (Live.size self σ') = inr (Live.self_max_size self + 1) ∧
  fst (Live.add self "g" σ') = inr tt.
Proof.
  intros self σ σ'.
  assert (Hfull : fst (Live.size self σ) = inr (Live.self_max_size self))
    by (vm_compute; reflexivity).
  split; [exact Hfull|]. split; [reflexivity|].
  exact (get_items_alias_overfills self σ 0%nat "f" "g" Hfull eq_refl).
Defined.

(** X15. Every instance gets a list of its own: of two carts created one
    after the other, adding to the first leaves the second empty. *)
Theorem instances_are_independent (σ : store) (item : string) :
  let cart1 := fst (Live.init σ) in
  let σ1 := snd (Live.init σ) in
  let cart2 := fst (Live.init σ1) in
  let σ2 := snd (Live.init σ1) in
  Live.self_items cart1 ≠ Live.self_items cart2 ∧
  Live.cart_of cart1 (snd (Live.add cart1 item σ2))
  = {| items := [item]; max_size := 5 |} ∧
  Live.cart_of cart2 (snd (Live.add cart1 item σ2)) = new_cart.
Proof.
  intros cart1 σ1 cart2 σ2.
  assert (Hne : Live.self_items cart2 ≠ Live.self_items cart1).
  { intros Heq. pose proof (init_fresh σ1) as Hfresh.
    fold cart2 in Hfresh. rewrite Heq in Hfresh. unfold σ1 in Hfresh.
    rewrite init_store in Hfresh. fold cart1 in Hfresh.
    rewrite lookup_insert_eq in Hfresh. discriminate. }
  assert (Hread1 : Live.list_read (Live.self_items cart1) σ2 = []).
  { unfold σ2. rewrite init_store. fold cart2.
    rewrite list_read_insert_ne by exact Hne.
    unfold σ1. rewrite init_store. apply list_read_insert. }
  assert (Hread2 : Live.list_read (Live.self_items cart2) σ2 = []).
  { unfold σ2. rewrite init_store. apply list_read_insert. }
  split; [congruence|].
  rewrite live_add_unfold, Hread1. simpl. unfold Live.cart_of.
  split.
  - rewrite list_read_insert. reflexivity.
  - rewrite list_read_insert_ne by (intros E; apply Hne; symmetry; exact E).
    rewrite Hread2. reflexivity.
Qed.
